(** * API gateway: route classification, token verification, identity
    propagation and prefix proxying.

    Shallow embedding of [src/middleware/auth.middleware.js] and of the
    gateway composition that imports it.  JavaScript strings are modelled
    as [string]; JavaScript values by the fragment [value]; exceptions by
    the [Completion] monad; [req.headers] and [process.env] by [gmap]s
    keyed by strings. *)

From Stdlib Require Import ZArith Bool List Ascii.
From stdpp Require Import gmap strings list fin_maps.

Import ListNotations.
Local Open Scope string_scope.
Local Open Scope Z_scope.

(** ** JavaScript string primitives used by the source *)

Module JsString.

(** [s.startsWith(pre)] *)
Fixpoint startsWith (s pre : string) : bool :=
  match pre, s with
  | EmptyString, _ => true
  | String _ _, EmptyString => false
  | String c pre', String d s' => Ascii.eqb c d && startsWith s' pre'
  end.

(** [s.includes(sub)] *)
Fixpoint includes (s sub : string) : bool :=
  startsWith s sub ||
  match s with
  | EmptyString => false
  | String _ s' => includes s' sub
  end.

(** [s.slice(n)] for [0 <= n] *)
Fixpoint slice (n : nat) (s : string) : string :=
  match n, s with
  | O, _ => s
  | S _, EmptyString => EmptyString
  | S n', String _ s' => slice n' s'
  end.

(** [s.slice(0, n)] *)
Fixpoint take (n : nat) (s : string) : string :=
  match n, s with
  | O, _ => EmptyString
  | S _, EmptyString => EmptyString
  | S n', String c s' => String c (take n' s')
  end.

(** [s.replace(pat, rep)] with a string pattern: only the first
    occurrence of [pat] is replaced. *)
Fixpoint replace (s pat rep : string) : string :=
  if startsWith s pat then rep +:+ slice (String.length pat) s
  else match s with
       | EmptyString => EmptyString
       | String c s' => String c (replace s' pat rep)
       end.

(** [s.split(sep)] for a one-character separator; [acc] is the piece
    being read, most recent character first. *)
Fixpoint split_go (sep : ascii) (acc : string) (s : string) : list string :=
  match s with
  | EmptyString => [String.rev acc]
  | String c s' =>
      if Ascii.eqb c sep then String.rev acc :: split_go sep EmptyString s'
      else split_go sep (String c acc) s'
  end.

Definition split (sep : ascii) (s : string) : list string :=
  split_go sep EmptyString s.

(** ASCII case folding, as a case-insensitive regular expression does. *)
Definition lower_ascii (c : ascii) : ascii :=
  let n := nat_of_ascii c in
  if (Nat.leb 65 n && Nat.leb n 90)%bool then ascii_of_nat (n + 32) else c.

Fixpoint toLowerCase (s : string) : string :=
  match s with
  | EmptyString => EmptyString
  | String c s' => String (lower_ascii c) (toLowerCase s')
  end.

End JsString.

Import JsString.

(** ** JavaScript values, truthiness, property access, exceptions *)

#[warnings="-register-all"]
Inductive value : Type :=
| VUndefined
| VNull
| VBool (b : bool)
| VNum (n : Z)
| VStr (s : string)
| VObj (props : list (string * value))
| VArr (items : list value).

(** [!!v] *)
Definition truthy (v : value) : bool :=
  match v with
  | VUndefined | VNull => false
  | VBool b => b
  | VNum n => negb (n =? 0)
  | VStr s => negb (String.eqb s "")
  | VObj _ | VArr _ => true
  end.

(** [a || b] *)
Definition js_or (a b : value) : value := if truthy a then a else b.

(** An object is the list of its own properties; a key occurs once. *)
Fixpoint lookup_prop (k : string) (props : list (string * value)) : value :=
  match props with
  | [] => VUndefined
  | (k', v) :: rest => if String.eqb k' k then v else lookup_prop k rest
  end.

Record JsError := {
  err_name : string;
  err_message : string;
  err_status : option Z
}.

Definition TypeError (msg : string) : JsError :=
  {| err_name := "TypeError"; err_message := msg; err_status := None |}.

Definition ReferenceError (msg : string) : JsError :=
  {| err_name := "ReferenceError"; err_message := msg; err_status := None |}.

(** The outcome of evaluating a statement list: a value or a thrown error. *)
Inductive Completion (A : Type) : Type :=
| Normal (a : A)
| Throw (e : JsError).

Arguments Normal {A} a.
Arguments Throw {A} e.

Definition Completion_bind {A B : Type} (f : A -> Completion B)
    (c : Completion A) : Completion B :=
  match c with
  | Normal a => f a
  | Throw e => Throw e
  end.

#[global] Instance Completion_ret : MRet Completion := @Normal.
#[global] Instance Completion_mbind : MBind Completion := @Completion_bind.

(** [v.k]: reading a property of [undefined] or [null] throws.  None of the
    property names the source reads exists on a primitive or an array. *)
Definition member (v : value) (k : string) : Completion value :=
  match v with
  | VUndefined | VNull =>
      Throw (TypeError ("Cannot read properties of undefined (reading '" +:+ k +:+ "')"))
  | VObj props => Normal (lookup_prop k props)
  | _ => Normal VUndefined
  end.

(** [v?.k] *)
Definition opt_member (v : value) (k : string) : value :=
  match v with
  | VObj props => lookup_prop k props
  | _ => VUndefined
  end.

(** [v.split(" ")]: only strings have the method. *)
Definition js_split (v : value) (sep : ascii) : Completion (list string) :=
  match v with
  | VStr s => Normal (split sep s)
  | _ => Throw (TypeError "authHeader.split is not a function")
  end.

(** ** Requests, responses and the ambient runtime *)

Record Request := {
  method : string;
  path : string;                  (* req.path: the pathname of [url] *)
  url : string;                   (* req.url: pathname and query string *)
  headers : gmap string value;    (* req.headers *)
  body : string                   (* the request body, as bytes *)
}.

(** What the process cannot decide by itself: the two library functions the
    middleware calls, the environment, and the clock read by
    [new Date().toISOString()]. *)
Record Runtime := {
  jwt_verify : string -> string -> Completion value;
  JSON_stringify : value -> Completion value;
  process_env : gmap string string;
  now_ISO : string
}.

(** [req.headers?.k] *)
Definition header (req : Request) (k : string) : value :=
  match headers req !! k with
  | Some v => v
  | None => VUndefined
  end.

(** [req.headers[k] = v] *)
Definition set_header (k : string) (v : value) (req : Request) : Request :=
  {| method := method req; path := path req; url := url req;
     headers := <[k := v]> (headers req); body := body req |}.

(** The response object: whether a response has begun, and what was written. *)
Record Res := {
  headersSent : bool;
  written : list (Z * value)
}.

Definition fresh_res : Res := {| headersSent := false; written := [] |}.

(** [res.status(code).json(payload)] *)
Definition res_status_json (code : Z) (payload : value) (res : Res) : Res :=
  {| headersSent := true; written := written res ++ [(code, payload)] |}.

(** ** RouteClassifier ([PUBLIC_ROUTES], [isPublicRoute]) *)

Definition PUBLIC_ROUTES : list string :=
  [ "/api/auth/login";
    "/api/auth/register";
    "/api/auth/forgot-password";
    "/api/auth/reset-password";
    "/health";
    "/api" ].

(** The callback handed to [PUBLIC_ROUTES.some]. *)
Definition routeCallback (path route : string) : bool :=
  if includes route "*" then
    let baseRoute := replace route "/*" "" in
    startsWith path baseRoute
  else
    String.eqb path route || startsWith path route.

(** [routes.some(route => ...)] for an arbitrary route list. *)
Definition isPublicRouteIn (routes : list string) (path : string) : bool :=
  existsb (routeCallback path) routes.

Definition isPublicRoute (path : string) : bool :=
  isPublicRouteIn PUBLIC_ROUTES path.

(** *** The classifier as the specification words it *)

Definition has_prefix (pre s : string) : Prop :=
  exists rest, s = pre +:+ rest.

Definition is_wildcard (route : string) : Prop :=
  exists a b, route = a +:+ "*" +:+ b.

(** The base of a wildcard entry: the entry with its first "/*" removed. *)
Definition wildcard_base (route : string) : string :=
  replace route "/*" "".

Definition entry_matches (route path : string) : Prop :=
  (is_wildcard route /\ has_prefix (wildcard_base route) path) \/
  (~ is_wildcard route /\ (path = route \/ has_prefix route path)).

(** ** TokenVerifier and IdentityPropagator ([gatewayAuthMiddleware]) *)

(** What a middleware did with the request: called [next()] (the request
    carries the header assignments made before the call), or ended it with
    [res.status(code).json(payload)]. *)
Inductive MiddlewareResult : Type :=
| Next (req : Request)
| Reply (code : Z) (payload : value).

Definition authFailure (rt : Runtime) (msg : string) : value :=
  VObj [ ("success", VBool false);
         ("message", VStr msg);
         ("timestamp", VStr (now_ISO rt)) ].

(** The body of the [try] block. *)
Definition tryBlock (rt : Runtime) (req : Request) : Completion MiddlewareResult :=
  let authHeader := header req "authorization" in
  if negb (truthy authHeader) then
    mret (Reply 401 (authFailure rt "Authentication required"))
  else
    parts ← js_split authHeader " ";
    if negb (Nat.eqb (length parts) 2) || negb (String.eqb (nth 0 parts "") "Bearer") then
      mret (Reply 401 (authFailure rt "Invalid authorization header format"))
    else
      let token := nth 1 parts "" in
      let jwtSecret := process_env rt !! "JWT_SECRET" in
      match jwtSecret with
      | None => mret (Reply 500 (authFailure rt "Server configuration error"))
      | Some secret =>
          if String.eqb secret "" then
            mret (Reply 500 (authFailure rt "Server configuration error"))
          else
            decoded ← jwt_verify rt token secret;
            user ← member decoded "user";
            let req1 :=
              set_header "x-user-id"
                (js_or (opt_member user "id") (opt_member user "_id")) req in
            let req2 := set_header "x-user-email" (opt_member user "email") req1 in
            let req3 := set_header "x-user-type" (opt_member user "userType") req2 in
            blob ← JSON_stringify rt user;
            let req4 := set_header "x-user-data" blob req3 in
            mret (Next req4)
      end.

(** The [catch] branch. *)
Definition catchBlock (rt : Runtime) (error : JsError) : MiddlewareResult :=
  if String.eqb (err_name error) "TokenExpiredError" then
    Reply 401 (authFailure rt "Token has expired")
  else
    Reply 401 (authFailure rt "Invalid or expired token").

Definition gatewayAuthMiddleware (rt : Runtime) (req : Request) : MiddlewareResult :=
  if isPublicRoute (path req) then Next req
  else
    match tryBlock rt req with
    | Normal r => r
    | Throw error => catchBlock rt error
    end.

(** ** The gateway composition

    Only the layers with decision logic are modelled: the health route, the
    three proxy mounts, the documentation route, the 404 handler and the
    global error handler.  The off-the-shelf layers registered before them
    (CORS, body parsers, rate limiter, compression, timeout) hand every
    request they admit to the next layer unchanged. *)

(** [process.env.NAME || fallback] *)
Definition env_or (rt : Runtime) (name fallback : string) : string :=
  match process_env rt !! name with
  | Some s => if String.eqb s "" then fallback else s
  | None => fallback
  end.

Definition AUTH_SERVICE_URL (rt : Runtime) : string :=
  env_or rt "AUTH_SERVICE_URL" "http://localhost:3001".

Definition IAM_SERVICE_URL (rt : Runtime) : string :=
  env_or rt "IAM_SERVICE_URL" "http://localhost:3002".

Definition INVENTORY_SERVICE_URL (rt : Runtime) : string :=
  env_or rt "INVENTORY_SERVICE_URL" "http://localhost:3003".

(** The top-level constants of the module that hold strings.  The other
    top-level bindings are [app], [PORT], [logger], [limiter], [server] and
    the imported modules. *)
Definition module_scope (rt : Runtime) : list (string * value) :=
  [ ("AUTH_SERVICE_URL", VStr (AUTH_SERVICE_URL rt));
    ("IAM_SERVICE_URL", VStr (IAM_SERVICE_URL rt));
    ("INVENTORY_SERVICE_URL", VStr (INVENTORY_SERVICE_URL rt)) ].

(** Evaluating an identifier: one that no scope declares throws. *)
Fixpoint resolve (scope : list (string * value)) (id : string) : Completion value :=
  match scope with
  | [] => Throw (ReferenceError (id +:+ " is not defined"))
  | (k, v) :: rest => if String.eqb k id then Normal v else resolve rest id
  end.

(** One [app.use(mountPath, proxy(host, {...}))]: the mount path, the host
    handed to [proxy], the literal its [proxyReqPathResolver] prepends and
    the message of its [proxyErrorHandler]. *)
Record ProxyMount := {
  mountPath : string;
  host : string;
  resolverPrefix : string;
  unavailableMessage : string
}.

Definition authProxy (rt : Runtime) : ProxyMount :=
  {| mountPath := "/api/authz"; host := AUTH_SERVICE_URL rt;
     resolverPrefix := "/api/authz";
     unavailableMessage := "Auth service unavailable" |}.

Definition iamProxy (rt : Runtime) : ProxyMount :=
  {| mountPath := "/api/iam"; host := IAM_SERVICE_URL rt;
     resolverPrefix := "/api/iam";
     unavailableMessage := "IAM service unavailable" |}.

Definition inventoryProxy (rt : Runtime) : ProxyMount :=
  {| mountPath := "/api/inv"; host := INVENTORY_SERVICE_URL rt;
     resolverPrefix := "/api/inv";
     unavailableMessage := "Inventory service unavailable" |}.

Definition proxyMounts (rt : Runtime) : list ProxyMount :=
  [authProxy rt; iamProxy rt; inventoryProxy rt].

(** [proxyReqPathResolver]: [req.url] is the URL as the mount received it. *)
Definition proxyReqPathResolver (m : ProxyMount) (req : Request) : string :=
  let originalPath := url req in
  let newPath := resolverPrefix m +:+ originalPath in
  newPath.

(** The request [proxy] sends: to [host], at the resolved path, with the
    method, headers and body of the request it was given (the source
    installs no decorator for them). *)
Record ProxyRequest := {
  target : string;
  targetPath : string;
  proxyMethod : string;
  proxyHeaders : gmap string value;
  proxyBody : string
}.


Definition proxy (m : ProxyMount) (req : Request) : ProxyRequest :=
  {| target := host m; targetPath := proxyReqPathResolver m req;
     proxyMethod := method req; proxyHeaders := headers req;
     proxyBody := body req |}.

Definition proxyErrorHandler (rt : Runtime) (m : ProxyMount) (err : JsError)
    (res : Res) : Res :=
  if negb (headersSent res) then
    res_status_json 500
      (VObj [ ("status", VStr "error");
              ("message", VStr (unavailableMessage m));
              ("error", VStr (err_message err));
              ("timestamp", VStr (now_ISO rt)) ])
      res
  else res.

(** *** Express routing

    [app.use(mount, fn)] matches the pathname against the mount path without
    regard to case, up to a segment boundary; the matched text is what the
    router removes from [req.url] before calling [fn]. *)
Definition layerPath (mount pathname : string) : option string :=
  let n := String.length mount in
  let matched := take n pathname in
  let rest := slice n pathname in
  if String.eqb (toLowerCase matched) (toLowerCase mount) then
    if String.eqb rest "" then Some matched
    else if startsWith rest "/" then
      (* an optional slash is taken when a boundary still follows it *)
      let after := slice 1 rest in
      if String.eqb after "" || startsWith after "/" then Some (matched +:+ "/")
      else Some matched
    else None
  else None.

Definition ensureLeadingSlash (s : string) : string :=
  if startsWith s "/" then s else "/" +:+ s.

Definition trim_prefix (removed : string) (req : Request) : Request :=
  let n := String.length removed in
  {| method := method req;
     path := ensureLeadingSlash (slice n (path req));
     url := ensureLeadingSlash (slice n (url req));
     headers := headers req; body := body req |}.

(** [app.get(route, fn)]: the whole pathname, without regard to case, with
    an optional trailing slash; [GET] and [HEAD] requests only. *)
Definition routeMatches (route : string) (req : Request) : bool :=
  (String.eqb (method req) "GET" || String.eqb (method req) "HEAD") &&
  (String.eqb (toLowerCase (path req)) (toLowerCase route) ||
   String.eqb (toLowerCase (path req)) (toLowerCase route +:+ "/")).

Fixpoint firstMount (mounts : list ProxyMount) (req : Request)
    : option ProxyRequest :=
  match mounts with
  | [] => None
  | m :: rest =>
      match layerPath (mountPath m) (path req) with
      | Some removed => Some (proxy m (trim_prefix removed req))
      | None => firstMount rest req
      end
  end.

(** The handler of [app.get("/gateway/health")]: the object literal is
    evaluated property by property before [res.json] is called. *)
Definition healthHandler (rt : Runtime) (res : Res) : Completion Res :=
  auth ← resolve (module_scope rt) "AUTH_SERVICE_URL";
  order ← resolve (module_scope rt) "INVENTORY_SERVICE_URL";
  kyc ← resolve (module_scope rt) "KYC_SERVICE_URL";
  mret (res_status_json 200
          (VObj [ ("status", VStr "ok");
                  ("service", VStr "api-gateway");
                  ("timestamp", VStr (now_ISO rt));
                  ("services", VObj [ ("auth", auth); ("order", order); ("kyc", kyc) ]) ])
          res).

Definition apiDocumentation (rt : Runtime) (res : Res) : Res :=
  res_status_json 200
    (VObj [ ("success", VBool true);
            ("message", VStr "ics API Gateway");
            ("version", VStr "1.0.0");
            ("services", VArr [VStr "auth-service"; VStr "kyc-service"; VStr "order-service"]);
            ("endpoints", VObj [ ("authz", VStr "/api/authz/*");
                                 ("iam", VStr "/api/iam/*");
                                 ("inventory", VStr "/api/inventory/*") ]);
            ("documentation", VStr "https://docs.ics.com");
            ("timestamp", VStr (now_ISO rt)) ])
    res.

Definition notFoundHandler (rt : Runtime) (req : Request) (res : Res) : Res :=
  res_status_json 404
    (VObj [ ("success", VBool false);
            ("message", VStr ("Route " +:+ url req +:+ " not found"));
            ("timestamp", VStr (now_ISO rt)) ])
    res.

(** The global error handler, which Express calls with what a handler threw. *)
Definition globalErrorHandler (rt : Runtime) (err : JsError) (res : Res) : Res :=
  if negb (headersSent res) then
    res_status_json
      (match err_status err with
       | Some st => if st =? 0 then 500 else st
       | None => 500
       end)
      (VObj [ ("status", VStr "error");
              ("message", VStr (if String.eqb (err_message err) ""
                                then "Internal Server Error"
                                else err_message err));
              ("timestamp", VStr (now_ISO rt)) ])
      res
  else res.

(** How the gateway ends a request: it hands it to a backend, or it answers. *)
Inductive GatewayResult : Type :=
| Proxied (p : ProxyRequest)
| Answered (res : Res).

(** The layers in registration order.  [gatewayAuthMiddleware] is imported
    by the module but no [app.use] registers it. *)
Definition gateway (rt : Runtime) (req : Request) : GatewayResult :=
  if routeMatches "/gateway/health" req then
    match healthHandler rt fresh_res with
    | Normal res => Answered res
    | Throw err => Answered (globalErrorHandler rt err fresh_res)
    end
  else
    match firstMount (proxyMounts rt) req with
    | Some p => Proxied p
    | None =>
        if routeMatches "/api" req then Answered (apiDocumentation rt fresh_res)
        else Answered (notFoundHandler rt req fresh_res)
    end.

(** ** Concrete runtimes and requests, used to run the definitions *)

Module Fixtures.

Definition claims (id email userType : value) : value :=
  VObj [ ("user", VObj [ ("id", id); ("email", email); ("userType", userType) ]);
         ("iat", VNum 1700000000) ].

(** A verifier that knows four tokens issued under the secret "s3cret". *)
Definition verify (token secret : string) : Completion value :=
  if negb (String.eqb secret "s3cret") then
    Throw {| err_name := "JsonWebTokenError"; err_message := "invalid signature";
             err_status := None |}
  else if String.eqb token "good" then
    Normal (claims (VStr "u1") (VStr "a@b.com") (VStr "buyer"))
  else if String.eqb token "blank-id" then
    Normal (claims (VStr "") (VStr "a@b.com") (VStr "buyer"))
  else if String.eqb token "expired" then
    Throw {| err_name := "TokenExpiredError"; err_message := "jwt expired";
             err_status := None |}
  else
    Throw {| err_name := "JsonWebTokenError"; err_message := "jwt malformed";
             err_status := None |}.

(** A serializer that answers with one fixed text, and one that throws. *)
Definition stringify (v : value) : Completion value :=
  match v with
  | VUndefined => Normal VUndefined
  | _ => Normal (VStr "{}")
  end.


Definition clock : string := "2024-01-01T00:00:00.000Z".

Definition rt : Runtime :=
  {| jwt_verify := verify; JSON_stringify := stringify;
     process_env := {[ "JWT_SECRET" := "s3cret" ]};
     now_ISO := clock |}.

Definition rt_no_secret : Runtime :=
  {| jwt_verify := verify; JSON_stringify := stringify;
     process_env := ∅; now_ISO := clock |}.



(** A request with no header at all, and one carrying [Authorization]. *)
Definition bare (m p u b : string) : Request :=
  {| method := m; path := p; url := u; headers := ∅; body := b |}.

Definition with_authorization (p a : string) : Request :=
  {| method := "GET"; path := p; url := p;
     headers := {[ "authorization" := VStr a ]}; body := "" |}.

Definition health_request : Request :=
  bare "GET" "/gateway/health" "/gateway/health" "".
Definition no_authorization : Request := bare "GET" "/orders" "/orders" "".
Definition empty_authorization : Request := with_authorization "/orders" "".
Definition basic_authorization : Request := with_authorization "/orders" "Basic xyz".
Definition good_token : Request := with_authorization "/orders" "Bearer good".
Definition expired_token : Request := with_authorization "/orders" "Bearer expired".
Definition forged_token : Request := with_authorization "/orders" "Bearer forged".

End Fixtures.

(** ** Downstream extraction ([extractUserFromGateway]) *)

Module Service.

(** The request object of a downstream service: the request as received
    and the four properties the middleware may assign. *)
Record ServiceRequest := {
  inbound : Request;
  user : value;          (* req.user *)
  userId : value;        (* req.userId *)
  userEmail : value;     (* req.userEmail *)
  userType : value       (* req.userType *)
}.

(** A request no middleware has written to yet. *)
Definition received (req : Request) : ServiceRequest :=
  {| inbound := req; user := VUndefined; userId := VUndefined;
     userEmail := VUndefined; userType := VUndefined |}.

(** The body of the [try] block up to the call of [next()]; [JSON_parse]
    is the library's [JSON.parse]. *)
Definition extractTry (JSON_parse : value -> Completion value)
    (req : ServiceRequest) : Completion ServiceRequest :=
  if truthy (header (inbound req) "x-user-data") then
    parsed ← JSON_parse (header (inbound req) "x-user-data");
    mret {| inbound := inbound req;
            user := parsed;
            userId := header (inbound req) "x-user-id";
            userEmail := header (inbound req) "x-user-email";
            userType := header (inbound req) "x-user-type" |}
  else mret req.

(** Both the [try] block and the [catch] branch end in [next()]: the
    result is the request [next()] is called with. *)
Definition extractUserFromGateway (JSON_parse : value -> Completion value)
    (req : ServiceRequest) : ServiceRequest :=
  match extractTry JSON_parse req with
  | Normal req' => req'
  | Throw _ => req
  end.

End Service.

(** ** Callbacks that answer late: request timeout, proxy error, unhandled
    error *)

(** The callback handed to [req.setTimeout(30000, ...)]. *)
Definition requestTimeoutCallback (rt : Runtime) (res : Res) : Res :=
  if negb (headersSent res) then
    res_status_json 408
      (VObj [ ("success", VBool false);
              ("message", VStr "Request timeout");
              ("timestamp", VStr (now_ISO rt)) ])
      res
  else res.

Inductive LateEvent : Type :=
| RequestTimeout
| ProxyFailure (m : ProxyMount) (err : JsError)
| UnhandledError (err : JsError).

Definition handleEvent (rt : Runtime) (res : Res) (ev : LateEvent) : Res :=
  match ev with
  | RequestTimeout => requestTimeoutCallback rt res
  | ProxyFailure m err => proxyErrorHandler rt m err res
  | UnhandledError err => globalErrorHandler rt err res
  end.

(** The callbacks of a request, run in the order the events occur. *)
Definition handleEvents (rt : Runtime) (evs : list LateEvent) (res : Res) : Res :=
  fold_left (handleEvent rt) evs res.

(** ** More concrete runtimes and requests *)

Module ServiceFixtures.

Definition u1 : value :=
  VObj [ ("id", VStr "u1"); ("email", VStr "a@b.com"); ("userType", VStr "buyer") ].

Definition u1_text : string := "{id:u1,email:a@b.com,userType:buyer}".

(** A serializer and a parser that know the text of one object. *)
Definition stringify (v : value) : Completion value :=
  match v with
  | VUndefined => Normal VUndefined
  | _ => Normal (VStr u1_text)
  end.

Definition parse (v : value) : Completion value :=
  match v with
  | VStr s =>
      if String.eqb s u1_text then Normal u1
      else Throw {| err_name := "SyntaxError";
                    err_message := "Unexpected token in JSON";
                    err_status := None |}
  | _ => Throw {| err_name := "SyntaxError";
                  err_message := "Unexpected token in JSON";
                  err_status := None |}
  end.

(** A verifier whose token "no-user" carries no [user] claim. *)
Definition verify (token secret : string) : Completion value :=
  if String.eqb token "no-user" then Normal (VObj [ ("iat", VNum 1700000000) ])
  else Fixtures.verify token secret.

Definition rt : Runtime :=
  {| jwt_verify := verify; JSON_stringify := stringify;
     process_env := {[ "JWT_SECRET" := "s3cret" ]};
     now_ISO := Fixtures.clock |}.

(** A request to a public path that carries identity headers of its own. *)
Definition forged : Request :=
  {| method := "GET"; path := "/api/orders"; url := "/api/orders";
     headers := {[ "x-user-data" := VStr u1_text; "x-user-id" := VStr "admin";
                   "x-user-email" := VStr "root@b.com";
                   "x-user-type" := VStr "seller" ]};
     body := "" |}.

(** A request with identity headers but no serialized copy. *)
Definition no_copy : Request :=
  {| method := "GET"; path := "/orders"; url := "/orders";
     headers := {[ "x-user-id" := VStr "u1" ]}; body := "" |}.

Definition no_user_token : Request :=
  Fixtures.with_authorization "/orders" "Bearer no-user".

Definition mixed_case : Request :=
  Fixtures.bare "GET" "/Api/AUTHZ/login" "/Api/AUTHZ/login?next=1" "".



End ServiceFixtures.

(** * Properties *)

(** ** String primitives *)

Section StringFacts.

Lemma append_String c (s t : string) : String c s +:+ t = String c (s +:+ t).
Proof. reflexivity. Qed.

Lemma startsWith_true_iff s pre : startsWith s pre = true <-> has_prefix pre s.
Proof.
  revert s. induction pre as [|c pre IH]; intros s.
  - split; [intros _; exists s; reflexivity | intros _; destruct s; reflexivity].
  - destruct s as [|d s]; simpl.
    + split; [discriminate | intros [rest H]; discriminate H].
    + rewrite andb_true_iff, Ascii.eqb_eq, IH. split.
      * intros [-> [rest ->]]. exists rest. reflexivity.
      * intros [rest H]. rewrite append_String in H.
        injection H as -> ->. split; [reflexivity | exists rest; reflexivity].
Qed.

Lemma startsWith_cons c pre d s :
  startsWith (String d s) (String c pre) = Ascii.eqb c d && startsWith s pre.
Proof. reflexivity. Qed.

Lemma startsWith_empty s : startsWith s "" = true.
Proof. destruct s; reflexivity. Qed.

Lemma startsWith_append pre rest : startsWith (pre +:+ rest) pre = true.
Proof. apply startsWith_true_iff. exists rest. reflexivity. Qed.

Lemma includes_unfold s sub :
  includes s sub =
  startsWith s sub ||
  match s with EmptyString => false | String _ s' => includes s' sub end.
Proof. destruct s; reflexivity. Qed.

Lemma includes_true_iff s sub :
  includes s sub = true <-> exists a b, s = a +:+ sub +:+ b.
Proof.
  induction s as [|c s IH]; rewrite includes_unfold.
  - rewrite orb_false_r, startsWith_true_iff. split.
    + intros [rest ->]. exists "", rest. reflexivity.
    + intros [a [b H]]. destruct a as [|x a]; [|discriminate H].
      exists b. exact H.
  - rewrite orb_true_iff, startsWith_true_iff, IH. split.
    + intros [[rest ->] | [a [b ->]]].
      * exists "", rest. reflexivity.
      * exists (String c a), b. reflexivity.
    + intros [a [b H]]. destruct a as [|x a].
      * left. exists b. exact H.
      * right. rewrite append_String in H. injection H as _ ->.
        exists a, b. reflexivity.
Qed.

Lemma includes_star_iff route : includes route "*" = true <-> is_wildcard route.
Proof. apply includes_true_iff. Qed.

(** An entry that ends in "/*" and has no other "/*" has what precedes the
    wildcard as its base. *)
Lemma wildcard_base_trailing b :
  includes b "/*" = false -> wildcard_base (b +:+ "/*") = b.
Proof.
  unfold wildcard_base. induction b as [|c b IH]; intros H.
  - reflexivity.
  - rewrite includes_unfold in H. apply orb_false_iff in H as [H1 H2].
    specialize (IH H2). rewrite append_String.
    assert (startsWith (String c (b +:+ "/*")) "/*" = false) as Hs.
    { rewrite startsWith_cons in H1 |- *.
      destruct (Ascii.eqb "/" c); [|reflexivity].
      rewrite andb_true_l in H1 |- *.
      destruct b as [|d b]; [reflexivity|].
      rewrite append_String. rewrite startsWith_cons in H1 |- *.
      destruct (Ascii.eqb "*" d); [|reflexivity].
      rewrite startsWith_empty in H1. discriminate H1. }
    change (replace (String c (b +:+ "/*")) "/*" "")
      with (if startsWith (String c (b +:+ "/*")) "/*"
            then "" +:+ slice (String.length "/*") (String c (b +:+ "/*"))
            else String c (replace (b +:+ "/*") "/*" "")).
    rewrite Hs, IH. reflexivity.
Qed.

Lemma routeCallback_iff path route :
  routeCallback path route = true <-> entry_matches route path.
Proof.
  unfold routeCallback, entry_matches, wildcard_base.
  destruct (includes route "*") eqn:W.
  - apply includes_star_iff in W. rewrite startsWith_true_iff. tauto.
  - assert (~ is_wildcard route) as NW.
    { intros Hw. apply includes_star_iff in Hw. congruence. }
    rewrite orb_true_iff, String.eqb_eq, startsWith_true_iff. tauto.
Qed.

Lemma isPublicRouteIn_true_iff routes p :
  isPublicRouteIn routes p = true <->
  exists route, In route routes /\ entry_matches route p.
Proof.
  unfold isPublicRouteIn. rewrite existsb_exists.
  split; intros [r [Hin Hm]]; exists r; (split; [exact Hin|]);
    apply routeCallback_iff; exact Hm.
Qed.

End StringFacts.

(** ** RouteClassifier *)

(** C2: "/api" is an entry of the public-route list, and every path that
    starts with "/api" -- "/api" itself and every path below it -- is
    classified public, hence never protected. *)
Theorem api_subtree_is_public (rest : string) :
  In "/api" PUBLIC_ROUTES /\
  isPublicRoute ("/api" +:+ rest) = true /\
  isPublicRoute ("/api" +:+ rest) <> false.
Proof.
  assert (isPublicRoute ("/api" +:+ rest) = true) as H.
  { apply isPublicRouteIn_true_iff. exists "/api". split.
    - unfold PUBLIC_ROUTES. simpl. tauto.
    - apply routeCallback_iff. unfold routeCallback.
      change (includes "/api" "*") with false. cbv iota.
      rewrite startsWith_append. apply orb_true_r. }
  split; [unfold PUBLIC_ROUTES; simpl; tauto|].
  split; [exact H | rewrite H; discriminate].
Qed.

(** C3: a path is public exactly when some entry of the route list matches
    it -- a wildcard entry by prefix comparison on its base, any other entry
    by equality or by being a prefix of the path; a path that no entry
    matches is not public; the classifier returns on every path. *)
Theorem isPublicRoute_characterisation (routes : list string) (p : string) :
  (isPublicRouteIn routes p = true <->
     exists route, In route routes /\ entry_matches route p) /\
  (isPublicRouteIn routes p = false <->
     forall route, In route routes -> ~ entry_matches route p) /\
  (isPublicRoute p = true <->
     exists route, In route PUBLIC_ROUTES /\ entry_matches route p) /\
  (exists b : bool, isPublicRoute p = b).
Proof.
  split; [apply isPublicRouteIn_true_iff|].
  split; [|split; [apply isPublicRouteIn_true_iff | eexists; reflexivity]].
  split.
  - intros Hf route Hin Hm.
    assert (isPublicRouteIn routes p = true) as Ht
      by (apply isPublicRouteIn_true_iff; exists route; tauto).
    congruence.
  - intros Hall. destruct (isPublicRouteIn routes p) eqn:E; [|reflexivity].
    apply isPublicRouteIn_true_iff in E as [route [Hin Hm]].
    destruct (Hall route Hin Hm).
Qed.

(** ** TokenVerifier and IdentityPropagator *)

Ltac run_completion :=
  cbn [mbind mret Completion_mbind Completion_ret Completion_bind].

Section Middleware.

Variable rt : Runtime.
Variable req : Request.

Lemma header_lookup k v : headers req !! k = Some v -> header req k = v.
Proof. unfold header. intros ->. reflexivity. Qed.

Lemma header_absent k : headers req !! k = None -> header req k = VUndefined.
Proof. unfold header. intros ->. reflexivity. Qed.

(** A header that splits into two parts is not empty. *)
Lemma two_parts_nonempty h a b : split " " h = [a; b] -> truthy (VStr h) = true.
Proof. destruct h; [discriminate | reflexivity]. Qed.

(** A protected request runs the [try] block, and the [catch] branch
    answers what it throws. *)
Lemma protected_unfold :
  isPublicRoute (path req) = false ->
  gatewayAuthMiddleware rt req =
  match tryBlock rt req with
  | Normal r => r
  | Throw error => catchBlock rt error
  end.
Proof. unfold gatewayAuthMiddleware. intros ->. reflexivity. Qed.

(** With a well-formed header the [try] block reaches the secret check. *)
Lemma tryBlock_wellformed h token :
  headers req !! "authorization" = Some (VStr h) ->
  split " " h = ["Bearer"; token] ->
  tryBlock rt req =
  match process_env rt !! "JWT_SECRET" with
  | None => Normal (Reply 500 (authFailure rt "Server configuration error"))
  | Some secret =>
      if String.eqb secret "" then
        Normal (Reply 500 (authFailure rt "Server configuration error"))
      else
        decoded ← jwt_verify rt token secret;
        user ← member decoded "user";
        blob ← JSON_stringify rt user;
        mret (Next
                (set_header "x-user-data" blob
                   (set_header "x-user-type" (opt_member user "userType")
                      (set_header "x-user-email" (opt_member user "email")
                         (set_header "x-user-id"
                            (js_or (opt_member user "id") (opt_member user "_id"))
                            req)))))
  end.
Proof.
  intros Hh Hs. unfold tryBlock.
  rewrite (header_lookup _ _ Hh), (two_parts_nonempty _ _ _ Hs).
  cbn [negb js_split]. run_completion. rewrite Hs. reflexivity.
Qed.

(** With a configured secret the [try] block reaches [jwt.verify]. *)
Lemma tryBlock_verifies h token secret :
  headers req !! "authorization" = Some (VStr h) ->
  split " " h = ["Bearer"; token] ->
  process_env rt !! "JWT_SECRET" = Some secret ->
  secret <> "" ->
  tryBlock rt req =
  (decoded ← jwt_verify rt token secret;
   user ← member decoded "user";
   blob ← JSON_stringify rt user;
   mret (Next
           (set_header "x-user-data" blob
              (set_header "x-user-type" (opt_member user "userType")
                 (set_header "x-user-email" (opt_member user "email")
                    (set_header "x-user-id"
                       (js_or (opt_member user "id") (opt_member user "_id"))
                       req)))))).
Proof.
  intros Hh Hs He Hne. rewrite (tryBlock_wellformed _ _ Hh Hs), He.
  apply String.eqb_neq in Hne. rewrite Hne. reflexivity.
Qed.

End Middleware.

(** C4, amended: on a protected path, an absent or empty Authorization
    header is answered 401 "Authentication required"; a non-empty header
    that is not two space-separated parts with first part "Bearer" is
    answered 401 "Invalid authorization header format"; with a configured
    secret, a token whose verification throws TokenExpiredError is answered
    401 "Token has expired", and one whose verification throws anything else
    is answered 401 "Invalid or expired token". *)
Theorem auth_failure_responses (rt : Runtime) (req : Request) :
  isPublicRoute (path req) = false ->
  ((headers req !! "authorization" = None \/
    headers req !! "authorization" = Some (VStr "")) ->
   gatewayAuthMiddleware rt req =
   Reply 401 (authFailure rt "Authentication required")) /\
  (forall h,
     headers req !! "authorization" = Some (VStr h) ->
     h <> "" ->
     length (split " " h) <> 2%nat \/ nth 0 (split " " h) "" <> "Bearer" ->
     gatewayAuthMiddleware rt req =
     Reply 401 (authFailure rt "Invalid authorization header format")) /\
  (forall h token secret e,
     headers req !! "authorization" = Some (VStr h) ->
     split " " h = ["Bearer"; token] ->
     process_env rt !! "JWT_SECRET" = Some secret ->
     secret <> "" ->
     jwt_verify rt token secret = Throw e ->
     (err_name e = "TokenExpiredError" ->
      gatewayAuthMiddleware rt req =
      Reply 401 (authFailure rt "Token has expired")) /\
     (err_name e <> "TokenExpiredError" ->
      gatewayAuthMiddleware rt req =
      Reply 401 (authFailure rt "Invalid or expired token"))).
Proof.
  intros Hp. rewrite (protected_unfold rt req Hp). split; [|split].
  - intros [H | H]; unfold tryBlock.
    + rewrite (header_absent _ _ H). reflexivity.
    + rewrite (header_lookup _ _ _ H). reflexivity.
  - intros h Hh Hne Hbad. unfold tryBlock. rewrite (header_lookup _ _ _ Hh).
    apply String.eqb_neq in Hne. cbn [truthy js_split]. rewrite Hne.
    cbn [negb]. run_completion.
    destruct Hbad as [Hlen | Hfirst].
    + apply Nat.eqb_neq in Hlen. rewrite Hlen. reflexivity.
    + apply String.eqb_neq in Hfirst. rewrite Hfirst, orb_true_r. reflexivity.
  - intros h token secret e Hh Hs He Hne Hv.
    rewrite (tryBlock_verifies rt req h token secret Hh Hs He Hne), Hv.
    run_completion. unfold catchBlock. split; intros Hname.
    + rewrite Hname. reflexivity.
    + apply String.eqb_neq in Hname. rewrite Hname. reflexivity.
Qed.

Lemma auth_failure_responses_witness :
  gatewayAuthMiddleware Fixtures.rt Fixtures.no_authorization =
    Reply 401 (authFailure Fixtures.rt "Authentication required") /\
  gatewayAuthMiddleware Fixtures.rt Fixtures.basic_authorization =
    Reply 401 (authFailure Fixtures.rt "Invalid authorization header format") /\
  gatewayAuthMiddleware Fixtures.rt Fixtures.expired_token =
    Reply 401 (authFailure Fixtures.rt "Token has expired") /\
  gatewayAuthMiddleware Fixtures.rt Fixtures.forged_token =
    Reply 401 (authFailure Fixtures.rt "Invalid or expired token").
Proof.
  split; [|split; [|split]].
  - apply (auth_failure_responses Fixtures.rt Fixtures.no_authorization eq_refl).
    left. reflexivity.
  - apply (proj1 (proj2
      (auth_failure_responses Fixtures.rt Fixtures.basic_authorization eq_refl))
      "Basic xyz").
    + reflexivity.
    + discriminate.
    + right. discriminate.
  - apply (proj2 (proj2
      (auth_failure_responses Fixtures.rt Fixtures.expired_token eq_refl))
      "Bearer expired" "expired" "s3cret"
      {| err_name := "TokenExpiredError"; err_message := "jwt expired";
         err_status := None |}); try reflexivity.
    discriminate.
  - apply (proj2 (proj2
      (auth_failure_responses Fixtures.rt Fixtures.forged_token eq_refl))
      "Bearer forged" "forged" "s3cret"
      {| err_name := "JsonWebTokenError"; err_message := "jwt malformed";
         err_status := None |}); try reflexivity; discriminate.
Defined.

(** C4 as stated fails on an Authorization header that is present and
    empty: it is not two space-separated parts, yet the answer is
    "Authentication required", not "Invalid authorization header format". *)
Lemma empty_authorization_counterexample :
  isPublicRoute (path Fixtures.empty_authorization) = false /\
  headers Fixtures.empty_authorization !! "authorization" = Some (VStr "") /\
  length (split " " "") <> 2%nat /\
  gatewayAuthMiddleware Fixtures.rt Fixtures.empty_authorization =
    Reply 401 (authFailure Fixtures.rt "Authentication required") /\
  gatewayAuthMiddleware Fixtures.rt Fixtures.empty_authorization <>
    Reply 401 (authFailure Fixtures.rt "Invalid authorization header format").
Proof.
  split; [reflexivity|]. split; [reflexivity|]. split; [discriminate|].
  split; [reflexivity | discriminate].
Qed.

(** C5: when the header is present and well-formed and JWT_SECRET is unset
    or empty, a protected request is answered 500 "Server configuration
    error", which is no 401 answer. *)
Theorem missing_secret_is_500 (rt : Runtime) (req : Request) (h token : string) :
  isPublicRoute (path req) = false ->
  headers req !! "authorization" = Some (VStr h) ->
  split " " h = ["Bearer"; token] ->
  process_env rt !! "JWT_SECRET" = None \/
  process_env rt !! "JWT_SECRET" = Some "" ->
  gatewayAuthMiddleware rt req =
    Reply 500 (authFailure rt "Server configuration error") /\
  (forall payload, gatewayAuthMiddleware rt req <> Reply 401 payload).
Proof.
  intros Hp Hh Hs He.
  assert (gatewayAuthMiddleware rt req =
          Reply 500 (authFailure rt "Server configuration error")) as H.
  { rewrite (protected_unfold rt req Hp), (tryBlock_wellformed rt req h token Hh Hs).
    destruct He as [-> | ->]; reflexivity. }
  split; [exact H | intros payload; rewrite H; discriminate].
Qed.

Lemma missing_secret_is_500_witness :
  gatewayAuthMiddleware Fixtures.rt_no_secret Fixtures.good_token =
    Reply 500 (authFailure Fixtures.rt_no_secret "Server configuration error") /\
  (forall payload,
     gatewayAuthMiddleware Fixtures.rt_no_secret Fixtures.good_token <>
     Reply 401 payload).
Proof.
  apply (missing_secret_is_500 Fixtures.rt_no_secret Fixtures.good_token
           "Bearer good" "good").
  - reflexivity.
  - reflexivity.
  - reflexivity.
  - left. reflexivity.
Defined.

(** What the request handed to [next()] carries, once verification and
    serialization have returned. *)
Lemma propagated_headers (req : Request) (user blob : value) :
  let req' :=
    set_header "x-user-data" blob
      (set_header "x-user-type" (opt_member user "userType")
         (set_header "x-user-email" (opt_member user "email")
            (set_header "x-user-id"
               (js_or (opt_member user "id") (opt_member user "_id")) req))) in
  headers req' !! "x-user-id" =
    Some (js_or (opt_member user "id") (opt_member user "_id")) /\
  headers req' !! "x-user-email" = Some (opt_member user "email") /\
  headers req' !! "x-user-type" = Some (opt_member user "userType") /\
  headers req' !! "x-user-data" = Some blob.
Proof.
  cbn [set_header headers]. repeat split.
  - rewrite !lookup_insert_ne by discriminate. apply lookup_insert_eq.
  - rewrite !lookup_insert_ne by discriminate. apply lookup_insert_eq.
  - rewrite lookup_insert_ne by discriminate. apply lookup_insert_eq.
  - apply lookup_insert_eq.
Qed.







(** ** ProxyRouter *)

Section Router.

Variable rt : Runtime.

Lemma proxyMounts_cases m :
  In m (proxyMounts rt) -> m = authProxy rt \/ m = iamProxy rt \/ m = inventoryProxy rt.
Proof. unfold proxyMounts. simpl. intuition congruence. Qed.









End Router.





(** ** GatewayPipeline *)

(** C10, on the code: the health handler reads KYC_SERVICE_URL, which no
    scope declares; the read throws before [res.json] is called, and the
    global error handler answers status 500 with the ReferenceError's
    message.  So every request to the health route is answered 500, and
    none 200. *)
Theorem health_answers_500 (rt : Runtime) (req : Request) :
  routeMatches "/gateway/health" req = true ->
  resolve (module_scope rt) "KYC_SERVICE_URL" =
    Throw (ReferenceError "KYC_SERVICE_URL is not defined") /\
  healthHandler rt fresh_res =
    Throw (ReferenceError "KYC_SERVICE_URL is not defined") /\
  gateway rt req =
    Answered
      {| headersSent := true;
         written :=
           [ (500, VObj [ ("status", VStr "error");
                          ("message", VStr "KYC_SERVICE_URL is not defined");
                          ("timestamp", VStr (now_ISO rt)) ]) ] |} /\
  (forall res payload,
     gateway rt req = Answered res -> ~ In (200, payload) (written res)).
Proof.
  intros Hroute.
  assert (gateway rt req =
          Answered
            {| headersSent := true;
               written :=
                 [ (500, VObj [ ("status", VStr "error");
                                ("message", VStr "KYC_SERVICE_URL is not defined");
                                ("timestamp", VStr (now_ISO rt)) ]) ] |}) as Hg.
  { unfold gateway. rewrite Hroute. reflexivity. }
  split; [reflexivity|]. split; [reflexivity|]. split; [exact Hg|].
  intros res payload Hres. rewrite Hg in Hres. injection Hres as <-.
  intros [Hin | []]. discriminate Hin.
Qed.

Lemma health_answers_500_witness :
  gateway Fixtures.rt Fixtures.health_request =
    Answered
      {| headersSent := true;
         written :=
           [ (500, VObj [ ("status", VStr "error");
                          ("message", VStr "KYC_SERVICE_URL is not defined");
                          ("timestamp", VStr Fixtures.clock) ]) ] |}.
Proof.
  apply (health_answers_500 Fixtures.rt Fixtures.health_request eq_refl).
Defined.

(** The answers the gateway writes by itself carry status 200, 404 or 500. *)
Lemma gateway_answer_codes (rt : Runtime) (req : Request) (res : Res) :
  gateway rt req = Answered res ->
  exists payload, written res = [(500, payload)] \/
                  written res = [(200, payload)] \/
                  written res = [(404, payload)].
Proof.
  unfold gateway. destruct (routeMatches "/gateway/health" req).
  - intros H. injection H as <-. eexists. left. reflexivity.
  - destruct (firstMount (proxyMounts rt) req); [discriminate|].
    destruct (routeMatches "/api" req); intros H; injection H as <-;
      eexists; [right; left | right; right]; reflexivity.
Qed.

(** The middleware by itself: on a protected path [next()] is reached only
    through a successful [jwt.verify] and [JSON.stringify]. *)
Lemma next_requires_verification (rt : Runtime) (req req' : Request) :
  isPublicRoute (path req) = false ->
  gatewayAuthMiddleware rt req = Next req' ->
  exists h token secret decoded user blob,
    header req "authorization" = VStr h /\
    split " " h = ["Bearer"; token] /\
    process_env rt !! "JWT_SECRET" = Some secret /\
    jwt_verify rt token secret = Normal decoded /\
    member decoded "user" = Normal user /\
    JSON_stringify rt user = Normal blob /\
    headers req' !! "x-user-data" = Some blob.
Proof.
  intros Hp. rewrite (protected_unfold rt req Hp). unfold tryBlock, catchBlock.
  destruct (header req "authorization") as [| |b|n|h|props|items] eqn:Hh;
    cbn [truthy negb js_split]; run_completion;
    try (destruct (String.eqb _ "TokenExpiredError"); discriminate);
    try discriminate.
  - destruct b; cbn [negb]; [|discriminate].
    destruct (String.eqb _ "TokenExpiredError"); discriminate.
  - destruct (negb (n =? 0)); cbn [negb]; [|discriminate].
    destruct (String.eqb _ "TokenExpiredError"); discriminate.
  - destruct (negb (String.eqb h "")); cbn [negb]; [|discriminate].
    destruct (split " " h) as [|a [|token [|x l]]] eqn:Hs;
      cbn [length Nat.eqb negb orb nth]; try discriminate.
    destruct (String.eqb a "Bearer") eqn:Ha; cbn [negb]; [|discriminate].
    apply String.eqb_eq in Ha. subst a.
    destruct (process_env rt !! "JWT_SECRET") as [secret|] eqn:He; [|discriminate].
    destruct (String.eqb secret ""); [discriminate|].
    destruct (jwt_verify rt token secret) as [decoded|e] eqn:Hv; run_completion;
      [|destruct (String.eqb _ "TokenExpiredError"); discriminate].
    destruct (member decoded "user") as [user|e] eqn:Hu; run_completion;
      [|destruct (String.eqb _ "TokenExpiredError"); discriminate].
    destruct (JSON_stringify rt user) as [blob|e] eqn:Hj; run_completion;
      [|destruct (String.eqb _ "TokenExpiredError"); discriminate].
    intros H. injection H as <-.
    exists h, token, secret, decoded, user, blob.
    repeat (split; [reflexivity || assumption|]).
    cbn [set_header headers]. apply lookup_insert_eq.
Qed.

(** C1, on the code: the composition never runs the middleware.  A request
    to "/API/authz/login" with no credentials is not public and the
    middleware would answer it 401, yet the gateway hands it to the auth
    backend; and no answer the gateway writes by itself has status 401. *)
Theorem unauthenticated_request_is_proxied (rt : Runtime) (b : string) :
  isPublicRoute "/API/authz/login" = false /\
  gatewayAuthMiddleware rt
    (Fixtures.bare "POST" "/API/authz/login" "/API/authz/login" b) =
    Reply 401 (authFailure rt "Authentication required") /\
  gateway rt (Fixtures.bare "POST" "/API/authz/login" "/API/authz/login" b) =
    Proxied {| target := AUTH_SERVICE_URL rt; targetPath := "/api/authz/login";
               proxyMethod := "POST"; proxyHeaders := ∅; proxyBody := b |} /\
  (forall req res code payload,
     gateway rt req = Answered res ->
     In (code, payload) (written res) -> code <> 401).
Proof.
  split; [reflexivity|]. split; [reflexivity|]. split; [reflexivity|].
  intros req res code payload Hg Hin.
  destruct (gateway_answer_codes rt req res Hg) as [p [H | [H | H]]];
    rewrite H in Hin; destruct Hin as [Hin | []];
    injection Hin as <- _; discriminate.
Qed.

(** * Further properties of the code *)

(** ** RouteClassifier *)

Lemma has_prefix_extend pre p s : has_prefix pre p -> has_prefix pre (p +:+ s).
Proof.
  intros [rest ->]. exists (rest +:+ s).
  induction pre as [|c pre IH]; [reflexivity|].
  rewrite !append_String, IH. reflexivity.
Qed.

Lemma has_prefix_refl p : has_prefix p p.
Proof.
  exists "". induction p as [|c p IH]; [reflexivity|].
  rewrite append_String, <- IH. reflexivity.
Qed.

Lemma has_prefix_trans a b p : has_prefix a b -> has_prefix b p -> has_prefix a p.
Proof. intros [r ->] Hb. destruct Hb as [r' ->]. apply has_prefix_extend. exists r. reflexivity. Qed.

(** An entry without "*" matches exactly the paths it is a prefix of. *)
Lemma routeCallback_exact p route :
  includes route "*" = false -> routeCallback p route = startsWith p route.
Proof.
  intros Hw. unfold routeCallback. rewrite Hw.
  destruct (String.eqb p route) eqn:E; [|reflexivity].
  apply String.eqb_eq in E. subst p. symmetry.
  apply startsWith_true_iff, has_prefix_refl.
Qed.

(** The classifier is closed under extension of the path: whatever follows
    a public path, the result is public, for any route list. *)
Theorem public_closed_under_extension (routes : list string) (p s : string) :
  isPublicRouteIn routes p = true -> isPublicRouteIn routes (p +:+ s) = true.
Proof.
  rewrite !isPublicRouteIn_true_iff. intros [route [Hin Hm]].
  exists route. split; [exact Hin|].
  destruct Hm as [[Hw Hp] | [Hw [-> | Hp]]].
  - left. split; [exact Hw | apply has_prefix_extend; exact Hp].
  - right. split; [exact Hw|]. right. exists s. reflexivity.
  - right. split; [exact Hw|]. right. apply has_prefix_extend; exact Hp.
Qed.

Lemma public_closed_under_extension_witness :
  isPublicRouteIn PUBLIC_ROUTES ("/health" +:+ "z/anything") = true.
Proof.
  apply (public_closed_under_extension PUBLIC_ROUTES "/health" "z/anything").
  reflexivity.
Defined.

(** With the configured list, a path is public exactly when it starts with
    "/api" or with "/health": the four "/api/auth/..." entries add nothing. *)
Theorem configured_public_paths (p : string) :
  isPublicRoute p = true <->
  startsWith p "/api" = true \/ startsWith p "/health" = true.
Proof.
  unfold isPublicRoute, isPublicRouteIn, PUBLIC_ROUTES. cbn [existsb].
  rewrite !routeCallback_exact by reflexivity.
  rewrite orb_false_r, !orb_true_iff.
  assert (forall r, has_prefix "/api" r -> startsWith p r = true ->
                    startsWith p "/api" = true) as Hsub.
  { intros r Hr Hp. apply startsWith_true_iff.
    apply (has_prefix_trans _ r); [exact Hr | apply startsWith_true_iff; exact Hp]. }
  split.
  - intros [H | [H | [H | [H | [H | H]]]]];
      try (right; exact H); try (left; exact H);
      left; (eapply Hsub; [|exact H]); eexists; reflexivity.
  - intros [H | H]; tauto.
Qed.

(** A wildcard entry [b ++ "/*"], with no other "/*" in [b], matches exactly
    the paths that have [b] as a string prefix -- [b] itself and paths that
    continue [b] without a "/" included. *)
Theorem wildcard_entry_matches_prefix (b p : string) :
  includes b "/*" = false ->
  (isPublicRouteIn [b +:+ "/*"] p = true <-> has_prefix b p).
Proof.
  intros Hb. unfold isPublicRouteIn. cbn [existsb]. rewrite orb_false_r.
  unfold routeCallback.
  assert (includes (b +:+ "/*") "*" = true) as Hw.
  { apply includes_true_iff. exists (b +:+ "/"), "".
    clear Hb. induction b as [|c b IH]; [reflexivity|].
    rewrite !append_String, IH. reflexivity. }
  rewrite Hw. fold (wildcard_base (b +:+ "/*")).
  rewrite (wildcard_base_trailing b Hb). apply startsWith_true_iff.
Qed.

Lemma wildcard_entry_matches_prefix_witness :
  isPublicRouteIn ["/docs" +:+ "/*"] "/docsify" = true <-> has_prefix "/docs" "/docsify".
Proof. apply (wildcard_entry_matches_prefix "/docs" "/docsify"). reflexivity. Defined.

(** ** TokenVerifier and IdentityPropagator *)

(** The five ways the [try] block can end. *)
Lemma tryBlock_shape (rt : Runtime) (req : Request) :
  tryBlock rt req = Normal (Reply 401 (authFailure rt "Authentication required")) \/
  tryBlock rt req =
    Normal (Reply 401 (authFailure rt "Invalid authorization header format")) \/
  tryBlock rt req = Normal (Reply 500 (authFailure rt "Server configuration error")) \/
  (exists e, tryBlock rt req = Throw e) \/
  (exists user blob,
     tryBlock rt req =
     Normal (Next
               (set_header "x-user-data" blob
                  (set_header "x-user-type" (opt_member user "userType")
                     (set_header "x-user-email" (opt_member user "email")
                        (set_header "x-user-id"
                           (js_or (opt_member user "id") (opt_member user "_id"))
                           req)))))).
Proof.
  unfold tryBlock.
  destruct (truthy (header req "authorization")); cbn [negb]; [|left; reflexivity].
  destruct (js_split (header req "authorization") " ") as [parts|e]; run_completion;
    [|right; right; right; left; eexists; reflexivity].
  destruct (negb (Nat.eqb (length parts) 2) ||
            negb (String.eqb (nth 0 parts "") "Bearer"));
    [right; left; reflexivity|].
  destruct (process_env rt !! "JWT_SECRET") as [secret|];
    [|right; right; left; reflexivity].
  destruct (String.eqb secret ""); [right; right; left; reflexivity|].
  right; right; right.
  destruct (jwt_verify rt (nth 1 parts "") secret) as [decoded|e]; run_completion;
    [|left; eexists; reflexivity].
  destruct (member decoded "user") as [user|e]; run_completion;
    [|left; eexists; reflexivity].
  destruct (JSON_stringify rt user) as [blob|e]; run_completion;
    [|left; eexists; reflexivity].
  right. exists user, blob. reflexivity.
Qed.

(** Whatever the request, the runtime and the libraries do, the middleware
    either calls [next()] or answers with one of five responses: 401 with
    one of four messages, or 500 "Server configuration error". *)
Theorem middleware_outcomes (rt : Runtime) (req : Request) :
  (exists req', gatewayAuthMiddleware rt req = Next req') \/
  (exists msg,
     In msg [ "Authentication required"; "Invalid authorization header format";
              "Token has expired"; "Invalid or expired token" ] /\
     gatewayAuthMiddleware rt req = Reply 401 (authFailure rt msg)) \/
  gatewayAuthMiddleware rt req =
    Reply 500 (authFailure rt "Server configuration error").
Proof.
  unfold gatewayAuthMiddleware.
  destruct (isPublicRoute (path req)); [left; eexists; reflexivity|].
  destruct (tryBlock_shape rt req)
    as [H | [H | [H | [[e H] | [user [blob H]]]]]]; rewrite H.
  - right; left. eexists. split; [|reflexivity]. simpl. tauto.
  - right; left. eexists. split; [|reflexivity]. simpl. tauto.
  - right; right. reflexivity.
  - right; left. unfold catchBlock.
    destruct (String.eqb (err_name e) "TokenExpiredError");
      eexists; (split; [|reflexivity]); simpl; tauto.
  - left. eexists. reflexivity.
Qed.

(** What [next()] receives differs from the request at most in the four
    identity headers: method, path, URL, body and every other header are
    those of the request. *)
Theorem middleware_frame (rt : Runtime) (req req' : Request) :
  gatewayAuthMiddleware rt req = Next req' ->
  method req' = method req /\ path req' = path req /\
  url req' = url req /\ body req' = body req /\
  (forall k,
     k <> "x-user-id" -> k <> "x-user-email" ->
     k <> "x-user-type" -> k <> "x-user-data" ->
     headers req' !! k = headers req !! k).
Proof.
  unfold gatewayAuthMiddleware.
  destruct (isPublicRoute (path req)).
  - intros H. injection H as <-. repeat split; reflexivity.
  - destruct (tryBlock_shape rt req)
      as [H | [H | [H | [[e H] | [user [blob H]]]]]]; rewrite H;
      try discriminate.
    + unfold catchBlock.
      destruct (String.eqb (err_name e) "TokenExpiredError"); discriminate.
    + intros Hn. injection Hn as <-. cbn [set_header method path url body headers].
      repeat split; try reflexivity.
      intros k H1 H2 H3 H4.
      rewrite !lookup_insert_ne by congruence. reflexivity.
Qed.

Lemma middleware_frame_witness :
  exists req',
    gatewayAuthMiddleware Fixtures.rt Fixtures.good_token = Next req' /\
    url req' = "/orders" /\
    headers req' !! "authorization" = Some (VStr "Bearer good").
Proof.
  eexists. split; [reflexivity|].
  destruct (middleware_frame Fixtures.rt Fixtures.good_token _ eq_refl)
    as (_ & _ & Hu & _ & Hh).
  split; [exact Hu|].
  rewrite (Hh "authorization") by discriminate. reflexivity.
Defined.

(** A token that verifies but carries no [user] claim is admitted: the
    request goes on to [next()] with the three identity headers set to
    [undefined] and x-user-data set to what [JSON.stringify(undefined)]
    returns. *)
Theorem token_without_user_is_admitted (rt : Runtime) (req : Request)
    (h token secret : string) (decoded blob : value) :
  isPublicRoute (path req) = false ->
  headers req !! "authorization" = Some (VStr h) ->
  split " " h = ["Bearer"; token] ->
  process_env rt !! "JWT_SECRET" = Some secret ->
  secret <> "" ->
  jwt_verify rt token secret = Normal decoded ->
  member decoded "user" = Normal VUndefined ->
  JSON_stringify rt VUndefined = Normal blob ->
  exists req',
    gatewayAuthMiddleware rt req = Next req' /\
    headers req' !! "x-user-id" = Some VUndefined /\
    headers req' !! "x-user-email" = Some VUndefined /\
    headers req' !! "x-user-type" = Some VUndefined /\
    headers req' !! "x-user-data" = Some blob.
Proof.
  intros Hp Hh Hs He Hne Hv Hu Hj.
  rewrite (protected_unfold rt req Hp),
    (tryBlock_verifies rt req h token secret Hh Hs He Hne), Hv.
  run_completion. rewrite Hu. run_completion. rewrite Hj. run_completion.
  eexists. split; [reflexivity|].
  exact (propagated_headers req VUndefined blob).
Qed.

Lemma token_without_user_is_admitted_witness :
  exists req',
    gatewayAuthMiddleware ServiceFixtures.rt ServiceFixtures.no_user_token = Next req' /\
    headers req' !! "x-user-id" = Some VUndefined /\
    headers req' !! "x-user-email" = Some VUndefined /\
    headers req' !! "x-user-type" = Some VUndefined /\
    headers req' !! "x-user-data" = Some VUndefined.
Proof.
  apply (token_without_user_is_admitted ServiceFixtures.rt
           ServiceFixtures.no_user_token "Bearer no-user" "no-user" "s3cret"
           (VObj [ ("iat", VNum 1700000000) ]) VUndefined);
    try reflexivity.
  discriminate.
Defined.

(** *** Which headers pass the format check *)

Lemma includes_char c s sep :
  includes (String c s) (String sep "") = Ascii.eqb sep c || includes s (String sep "").
Proof. rewrite includes_unfold, startsWith_cons, startsWith_empty, andb_true_r. reflexivity. Qed.

Lemma includes_empty_char sep : includes "" (String sep "") = false.
Proof. reflexivity. Qed.

Lemma split_go_nonempty sep acc s : split_go sep acc s <> [].
Proof.
  revert acc. induction s as [|c s IH]; intros acc; cbn [split_go]; [discriminate|].
  destruct (Ascii.eqb c sep); [discriminate | apply IH].
Qed.

(** One piece: the string has no separator. *)
Lemma split_go_single sep acc s y :
  split_go sep acc s = [y] <->
  includes s (String sep "") = false /\ y = String.rev_app acc s.
Proof.
  revert acc. induction s as [|c s IH]; intros acc; cbn [split_go].
  - rewrite includes_empty_char. split.
    + intros H. injection H as <-. split; reflexivity.
    + intros [_ ->]. reflexivity.
  - rewrite includes_char, (Ascii.eqb_sym sep c).
    destruct (Ascii.eqb c sep) eqn:E; cbn [orb].
    + split; [|intros [H _]; discriminate H].
      intros H. injection H as _ H. destruct (split_go_nonempty _ _ _ H).
    + rewrite IH. reflexivity.
Qed.

(** Two pieces: one separator, with none before and none after it. *)
Lemma split_go_two sep acc s x y :
  split_go sep acc s = [x; y] <->
  exists a, s = a +:+ String sep y /\
            includes a (String sep "") = false /\
            includes y (String sep "") = false /\
            x = String.rev_app acc a.
Proof.
  revert acc. induction s as [|c s IH]; intros acc; cbn [split_go].
  - split; [discriminate|]. intros [a [H _]]. destruct a; discriminate H.
  - destruct (Ascii.eqb c sep) eqn:E.
    + apply Ascii.eqb_eq in E. subst c. split.
      * intros H. injection H as <- H. apply split_go_single in H as [Hy ->].
        exists "". repeat split; try reflexivity. exact Hy.
      * intros [a (Hs & Ha & Hy & ->)]. destruct a as [|d a].
        -- injection Hs as ->. f_equal. apply split_go_single. split; [exact Hy | reflexivity].
        -- rewrite append_String in Hs. injection Hs as <- _.
           rewrite includes_char, Ascii.eqb_refl in Ha. discriminate Ha.
    + rewrite IH. split.
      * intros [a (-> & Ha & Hy & ->)]. exists (String c a).
        rewrite includes_char, (Ascii.eqb_sym sep c), E.
        repeat split; assumption.
      * intros [a (Hs & Ha & Hy & ->)]. destruct a as [|d a].
        -- injection Hs as -> _. rewrite Ascii.eqb_refl in E. discriminate E.
        -- rewrite append_String in Hs. injection Hs as <- ->.
           rewrite includes_char in Ha. apply orb_false_iff in Ha as [_ Ha].
           exists a. repeat split; assumption.
Qed.

(** The header splits into "Bearer" and a token exactly when it is
    "Bearer ", then a token without a space. *)
Lemma bearer_split_iff h token :
  split " " h = ["Bearer"; token] <->
  h = "Bearer " +:+ token /\ includes token " " = false.
Proof.
  unfold split. rewrite split_go_two. split.
  - intros [a (-> & Ha & Hy & Hx)]. cbn in Hx. subst a. split; [reflexivity | exact Hy].
  - intros [-> Hy]. exists "Bearer". repeat split; try reflexivity. exact Hy.
Qed.

(** On a protected path a header passes the two header checks -- the
    answer is neither "Authentication required" nor "Invalid authorization
    header format" -- exactly when it is "Bearer ", then a token without a
    space (the empty token included). *)
Theorem header_checks_pass_iff (rt : Runtime) (req : Request) (h : string) :
  isPublicRoute (path req) = false ->
  headers req !! "authorization" = Some (VStr h) ->
  ((exists token, h = "Bearer " +:+ token /\ includes token " " = false) <->
   gatewayAuthMiddleware rt req <>
     Reply 401 (authFailure rt "Authentication required") /\
   gatewayAuthMiddleware rt req <>
     Reply 401 (authFailure rt "Invalid authorization header format")).
Proof.
  intros Hp Hh. rewrite (protected_unfold rt req Hp). split.
  - intros [token Hform]. apply bearer_split_iff in Hform.
    rewrite (tryBlock_wellformed rt req h token Hh Hform).
    destruct (process_env rt !! "JWT_SECRET") as [secret|];
      [|split; discriminate].
    destruct (String.eqb secret ""); [split; discriminate|].
    destruct (jwt_verify rt token secret) as [decoded|e]; run_completion;
      [|unfold catchBlock; destruct (String.eqb _ _); split; discriminate].
    destruct (member decoded "user") as [user|e]; run_completion;
      [|unfold catchBlock; destruct (String.eqb _ _); split; discriminate].
    destruct (JSON_stringify rt user) as [blob|e]; run_completion;
      [|unfold catchBlock; destruct (String.eqb _ _); split; discriminate].
    split; discriminate.
  - unfold tryBlock. rewrite (header_lookup req _ _ Hh). cbn [truthy js_split].
    destruct (String.eqb h "") eqn:Hempty; cbn [negb].
    + intros [H _]. destruct H. reflexivity.
    + run_completion.
      destruct (split " " h) as [|a [|token [|x l]]] eqn:Hs;
        cbn [length Nat.eqb negb orb nth];
        try (intros [_ H]; destruct H; reflexivity).
      destruct (String.eqb a "Bearer") eqn:Ha; cbn [negb];
        [|intros [_ H]; destruct H; reflexivity].
      apply String.eqb_eq in Ha. subst a. intros _.
      exists token. apply bearer_split_iff. exact Hs.
Qed.

Lemma header_checks_pass_iff_witness :
  (exists token, "Bearer good" = "Bearer " +:+ token /\ includes token " " = false) <->
  gatewayAuthMiddleware Fixtures.rt Fixtures.good_token <>
    Reply 401 (authFailure Fixtures.rt "Authentication required") /\
  gatewayAuthMiddleware Fixtures.rt Fixtures.good_token <>
    Reply 401 (authFailure Fixtures.rt "Invalid authorization header format").
Proof.
  apply (header_checks_pass_iff Fixtures.rt Fixtures.good_token "Bearer good");
    reflexivity.
Defined.

(** ** Downstream extraction *)

Section Extraction.

Import Service.

Variable JSON_parse : value -> Completion value.

(** The four properties are assigned together or not at all, and the
    request as received is never altered: either [next()] gets the request
    unchanged, or x-user-data was truthy and parsed, [req.user] is the
    parsed value and the three others are the x-user-id, x-user-email and
    x-user-type headers. *)
Theorem extraction_is_all_or_nothing (req : ServiceRequest) :
  inbound (extractUserFromGateway JSON_parse req) = inbound req /\
  (extractUserFromGateway JSON_parse req = req \/
   exists parsed,
     truthy (header (inbound req) "x-user-data") = true /\
     JSON_parse (header (inbound req) "x-user-data") = Normal parsed /\
     extractUserFromGateway JSON_parse req =
     {| inbound := inbound req; user := parsed;
        userId := header (inbound req) "x-user-id";
        userEmail := header (inbound req) "x-user-email";
        userType := header (inbound req) "x-user-type" |}).
Proof.
  unfold extractUserFromGateway, extractTry.
  destruct (truthy (header (inbound req) "x-user-data")) eqn:Ht.
  - destruct (JSON_parse (header (inbound req) "x-user-data")) as [parsed|e] eqn:Hp;
      run_completion.
    + split; [reflexivity|]. right. exists parsed. repeat split; reflexivity.
    + split; [reflexivity | left; reflexivity].
  - run_completion. split; [reflexivity | left; reflexivity].
Qed.

(** Without a usable serialized copy nothing is adopted: when x-user-data
    is absent or empty, or [JSON.parse] throws on it, [next()] gets the
    request unchanged, whatever the other identity headers hold. *)
Theorem extraction_needs_the_copy (req : ServiceRequest) :
  (truthy (header (inbound req) "x-user-data") = false \/
   exists e, JSON_parse (header (inbound req) "x-user-data") = Throw e) ->
  extractUserFromGateway JSON_parse req = req.
Proof.
  unfold extractUserFromGateway, extractTry. intros [Ht | [e He]].
  - rewrite Ht. reflexivity.
  - destruct (truthy _); [|reflexivity]. rewrite He. reflexivity.
Qed.

(** From gateway to service: when the middleware has verified a token whose
    user fields are non-empty strings, and [JSON.parse] inverts
    [JSON.stringify] on the user object, extraction from the request handed
    to [next()] yields the user object and the token's id, email and type. *)
Theorem gateway_to_service_round_trip (rt : Runtime) (req : Request)
    (h token secret text i e t : string) (decoded u : value) :
  isPublicRoute (path req) = false ->
  headers req !! "authorization" = Some (VStr h) ->
  split " " h = ["Bearer"; token] ->
  process_env rt !! "JWT_SECRET" = Some secret ->
  secret <> "" ->
  jwt_verify rt token secret = Normal decoded ->
  member decoded "user" = Normal u ->
  opt_member u "id" = VStr i -> i <> "" ->
  opt_member u "email" = VStr e ->
  opt_member u "userType" = VStr t ->
  JSON_stringify rt u = Normal (VStr text) -> text <> "" ->
  JSON_parse (VStr text) = Normal u ->
  exists req',
    gatewayAuthMiddleware rt req = Next req' /\
    extractUserFromGateway JSON_parse (received req') =
    {| inbound := req'; user := u; userId := VStr i;
       userEmail := VStr e; userType := VStr t |}.
Proof.
  intros Hp Hh Hs He Hne Hv Hu Hi Hine Hem Hty Hj Htne Hparse.
  rewrite (protected_unfold rt req Hp),
    (tryBlock_verifies rt req h token secret Hh Hs He Hne), Hv.
  run_completion. rewrite Hu. run_completion. rewrite Hj. run_completion.
  eexists. split; [reflexivity|].
  destruct (propagated_headers req u (VStr text)) as (Hid & Hmail & Htype & Hdata).
  cbv zeta in Hid, Hmail, Htype, Hdata.
  unfold extractUserFromGateway, extractTry. cbn [received inbound].
  rewrite (header_lookup _ _ _ Hdata), (header_lookup _ _ _ Hid),
    (header_lookup _ _ _ Hmail), (header_lookup _ _ _ Htype).
  cbn [truthy]. apply String.eqb_neq in Htne. rewrite Htne. cbn [negb].
  rewrite Hparse. run_completion.
  rewrite Hi, Hem, Hty. unfold js_or. cbn [truthy].
  apply String.eqb_neq in Hine. rewrite Hine. reflexivity.
Qed.

(** A public path is not a trust boundary: the middleware hands a request
    to a public path on with the identity headers it came with, and
    extraction adopts them. *)
Theorem public_path_identity_is_adopted (rt : Runtime) (req : Request)
    (text : string) (parsed : value) :
  isPublicRoute (path req) = true ->
  headers req !! "x-user-data" = Some (VStr text) ->
  text <> "" ->
  JSON_parse (VStr text) = Normal parsed ->
  gatewayAuthMiddleware rt req = Next req /\
  extractUserFromGateway JSON_parse (received req) =
  {| inbound := req; user := parsed;
     userId := header req "x-user-id";
     userEmail := header req "x-user-email";
     userType := header req "x-user-type" |}.
Proof.
  intros Hp Hd Hne Hparse. unfold gatewayAuthMiddleware. rewrite Hp.
  split; [reflexivity|].
  unfold extractUserFromGateway, extractTry. cbn [received inbound].
  rewrite (header_lookup _ _ _ Hd). cbn [truthy].
  apply String.eqb_neq in Hne. rewrite Hne. cbn [negb].
  rewrite Hparse. reflexivity.
Qed.

End Extraction.

Lemma extraction_needs_the_copy_witness :
  Service.extractUserFromGateway ServiceFixtures.parse
    (Service.received ServiceFixtures.no_copy) =
  Service.received ServiceFixtures.no_copy.
Proof.
  apply (extraction_needs_the_copy ServiceFixtures.parse
           (Service.received ServiceFixtures.no_copy)).
  left. reflexivity.
Defined.

Lemma gateway_to_service_round_trip_witness :
  exists req',
    gatewayAuthMiddleware ServiceFixtures.rt Fixtures.good_token = Next req' /\
    Service.extractUserFromGateway ServiceFixtures.parse (Service.received req') =
    {| Service.inbound := req'; Service.user := ServiceFixtures.u1;
       Service.userId := VStr "u1"; Service.userEmail := VStr "a@b.com";
       Service.userType := VStr "buyer" |}.
Proof.
  apply (gateway_to_service_round_trip ServiceFixtures.parse ServiceFixtures.rt
           Fixtures.good_token "Bearer good" "good" "s3cret"
           ServiceFixtures.u1_text "u1" "a@b.com" "buyer"
           (Fixtures.claims (VStr "u1") (VStr "a@b.com") (VStr "buyer"))
           ServiceFixtures.u1);
    try reflexivity; discriminate.
Defined.

Lemma public_path_identity_is_adopted_witness :
  gatewayAuthMiddleware ServiceFixtures.rt ServiceFixtures.forged =
    Next ServiceFixtures.forged /\
  Service.extractUserFromGateway ServiceFixtures.parse
    (Service.received ServiceFixtures.forged) =
  {| Service.inbound := ServiceFixtures.forged; Service.user := ServiceFixtures.u1;
     Service.userId := VStr "admin"; Service.userEmail := VStr "root@b.com";
     Service.userType := VStr "seller" |}.
Proof.
  apply (public_path_identity_is_adopted ServiceFixtures.parse ServiceFixtures.rt
           ServiceFixtures.forged ServiceFixtures.u1_text ServiceFixtures.u1);
    try reflexivity.
  discriminate.
Defined.

(** ** ProxyRouter *)

Section Routing.

Variable rt : Runtime.

Lemma toLowerCase_take n s : toLowerCase (take n s) = take n (toLowerCase s).
Proof.
  revert s. induction n as [|n IH]; intros [|c s]; try reflexivity.
  cbn [take toLowerCase]. rewrite IH. reflexivity.
Qed.

Lemma take_take n m s : (n <= m)%nat -> take n (take m s) = take n s.
Proof.
  revert m s. induction n as [|n IH]; intros m s Hle; [reflexivity|].
  destruct m as [|m]; [lia|]. destruct s as [|c s]; [reflexivity|].
  cbn [take]. rewrite IH by lia. reflexivity.
Qed.





Lemma mountPath_lower m : In m (proxyMounts rt) -> toLowerCase (mountPath m) = mountPath m.
Proof. intros H. destruct (proxyMounts_cases rt m H) as [-> | [-> | ->]]; reflexivity. Qed.

(** A mount matches only pathnames that begin, in lower case, with it. *)
Lemma layerPath_Some mount pathname removed :
  layerPath mount pathname = Some removed ->
  take (String.length mount) (toLowerCase pathname) = toLowerCase mount /\
  (removed = take (String.length mount) pathname \/
   removed = take (String.length mount) pathname +:+ "/").
Proof.
  unfold layerPath.
  destruct (String.eqb _ (toLowerCase mount)) eqn:E; [|discriminate].
  apply String.eqb_eq in E. rewrite toLowerCase_take in E.
  intros H. split; [exact E|].
  destruct (String.eqb (slice _ pathname) ""); [injection H as <-; left; reflexivity|].
  destruct (startsWith (slice _ pathname) "/"); [|discriminate].
  destruct (_ || _); injection H as <-; [right | left]; reflexivity.
Qed.

Lemma mounts_exclude (m1 m2 : ProxyMount) (pathname r1 r2 : string) :
  In m1 (proxyMounts rt) -> In m2 (proxyMounts rt) ->
  layerPath (mountPath m1) pathname = Some r1 ->
  layerPath (mountPath m2) pathname = Some r2 ->
  m1 = m2.
Proof.
  intros H1 H2 L1 L2.
  apply layerPath_Some in L1 as [L1 _]. apply layerPath_Some in L2 as [L2 _].
  destruct (proxyMounts_cases rt m1 H1) as [-> | [-> | ->]];
    destruct (proxyMounts_cases rt m2 H2) as [-> | [-> | ->]];
    try reflexivity; exfalso;
    cbn [mountPath authProxy iamProxy inventoryProxy String.length] in L1, L2;
    first
      [ rewrite L1 in L2; discriminate L2
      | apply (f_equal (take 8)) in L1; rewrite take_take in L1 by lia;
        rewrite L1 in L2; discriminate L2
      | apply (f_equal (take 8)) in L2; rewrite take_take in L2 by lia;
        rewrite L2 in L1; discriminate L1 ].
Qed.


End Routing.

(** The three mounts exclude one another: no pathname matches two, so the
    order in which they are registered decides nothing. *)
Theorem mounts_are_disjoint (rt : Runtime) (m1 m2 : ProxyMount)
    (pathname r1 r2 : string) :
  In m1 (proxyMounts rt) -> In m2 (proxyMounts rt) ->
  layerPath (mountPath m1) pathname = Some r1 ->
  layerPath (mountPath m2) pathname = Some r2 ->
  m1 = m2 /\ r1 = r2.
Proof.
  intros H1 H2 L1 L2.
  assert (m1 = m2) by (eapply mounts_exclude; eassumption).
  subst m2. split; [reflexivity | congruence].
Qed.

Lemma mounts_are_disjoint_witness :
  iamProxy Fixtures.rt = iamProxy Fixtures.rt /\ "/api/iam" = "/api/iam".
Proof.
  apply (mounts_are_disjoint Fixtures.rt (iamProxy Fixtures.rt) (iamProxy Fixtures.rt)
           "/api/iam/roles" "/api/iam" "/api/iam").
  - right; left; reflexivity.
  - right; left; reflexivity.
  - reflexivity.
  - reflexivity.
Defined.

Section Dispatch.

Variable rt : Runtime.

Lemma take_slice n s : s = take n s +:+ slice n s.
Proof.
  revert s. induction n as [|n IH]; intros [|c s]; try reflexivity.
  cbn [take slice]. rewrite append_String, <- IH. reflexivity.
Qed.

Lemma api_prefix_public p : has_prefix "/api" p -> isPublicRoute p = true.
Proof.
  intros Hp. apply isPublicRouteIn_true_iff. exists "/api". split.
  - unfold PUBLIC_ROUTES. simpl. tauto.
  - right. split; [|right; exact Hp].
    intros Hw. apply includes_star_iff in Hw. discriminate Hw.
Qed.


Lemma firstMount_Some mounts req p :
  firstMount mounts req = Some p ->
  exists m removed,
    In m mounts /\ layerPath (mountPath m) (path req) = Some removed /\
    p = proxy m (trim_prefix removed req).
Proof.
  induction mounts as [|m mounts IH]; [discriminate|]. cbn [firstMount].
  destruct (layerPath (mountPath m) (path req)) as [removed|] eqn:E.
  - intros H. injection H as <-. exists m, removed.
    split; [left; reflexivity | split; [exact E | reflexivity]].
  - intros H. destruct (IH H) as (m' & r & Hin & Hl & Hp).
    exists m', r. split; [right; exact Hin | split; assumption].
Qed.

Lemma gateway_Proxied req p :
  gateway rt req = Proxied p -> firstMount (proxyMounts rt) req = Some p.
Proof.
  unfold gateway. destruct (routeMatches "/gateway/health" req).
  - destruct (healthHandler rt fresh_res); discriminate.
  - destruct (firstMount (proxyMounts rt) req) as [p'|].
    + intros H. injection H as <-. reflexivity.
    + destruct (routeMatches "/api" req); discriminate.
Qed.




End Dispatch.

(** Every request the gateway hands to a backend has a pathname that, in
    lower case, the classifier calls public: all three mounts lie below
    the public entry "/api". *)
Theorem proxied_paths_are_public (rt : Runtime) (req : Request) (p : ProxyRequest) :
  gateway rt req = Proxied p ->
  isPublicRoute (toLowerCase (path req)) = true.
Proof.
  intros Hg. apply gateway_Proxied, firstMount_Some in Hg
    as (m & removed & Hm & Hl & _).
  apply layerPath_Some in Hl as [Hl _].
  rewrite (mountPath_lower rt m Hm) in Hl.
  apply api_prefix_public.
  apply (has_prefix_trans _ (mountPath m)).
  - destruct (proxyMounts_cases rt m Hm) as [-> | [-> | ->]]; eexists; reflexivity.
  - exists (slice (String.length (mountPath m)) (toLowerCase (path req))).
    rewrite <- Hl at 1. apply take_slice.
Qed.

Lemma proxied_paths_are_public_witness :
  isPublicRoute (toLowerCase (path ServiceFixtures.mixed_case)) = true.
Proof.
  apply (proxied_paths_are_public Fixtures.rt ServiceFixtures.mixed_case
           (proxy (authProxy Fixtures.rt)
              (trim_prefix "/Api/AUTHZ" ServiceFixtures.mixed_case))).
  reflexivity.
Defined.











(** ** Callbacks that answer late *)

Lemma handleEvent_after_sent (rt : Runtime) (res : Res) (ev : LateEvent) :
  headersSent res = true -> handleEvent rt res ev = res.
Proof.
  intros H. destruct ev; unfold handleEvent, requestTimeoutCallback,
    proxyErrorHandler, globalErrorHandler; rewrite H; reflexivity.
Qed.

Lemma handleEvent_fresh (rt : Runtime) (ev : LateEvent) :
  headersSent (handleEvent rt fresh_res ev) = true /\
  length (written (handleEvent rt fresh_res ev)) = 1%nat.
Proof. destruct ev; split; reflexivity. Qed.

Lemma handleEvents_after_sent (rt : Runtime) (evs : list LateEvent) (res : Res) :
  headersSent res = true -> handleEvents rt evs res = res.
Proof.
  unfold handleEvents. revert res. induction evs as [|ev evs IH]; intros res H.
  - reflexivity.
  - cbn [fold_left]. rewrite (handleEvent_after_sent rt res ev H). apply IH. exact H.
Qed.

(** Of the request timeout, the proxy error handlers and the global error
    handler, in whatever order and number they fire for a request, only the
    first writes: the response is the first one's answer, and once a
    response has begun none of them writes again. *)
Theorem only_the_first_late_event_answers (rt : Runtime) (evs : list LateEvent) :
  (forall res, headersSent res = true -> handleEvents rt evs res = res) /\
  (forall ev,
     handleEvents rt (ev :: evs) fresh_res = handleEvent rt fresh_res ev /\
     length (written (handleEvents rt (ev :: evs) fresh_res)) = 1%nat) /\
  handleEvents rt (RequestTimeout :: evs) fresh_res =
    {| headersSent := true;
       written := [ (408, VObj [ ("success", VBool false);
                                 ("message", VStr "Request timeout");
                                 ("timestamp", VStr (now_ISO rt)) ]) ] |}.
Proof.
  assert (forall ev, handleEvents rt (ev :: evs) fresh_res = handleEvent rt fresh_res ev)
    as Hfirst.
  { intros ev. unfold handleEvents. cbn [fold_left].
    apply (handleEvents_after_sent rt evs), handleEvent_fresh. }
  split; [intros res; apply handleEvents_after_sent|].
  split.
  - intros ev. split; [apply Hfirst|]. rewrite Hfirst. apply handleEvent_fresh.
  - rewrite Hfirst. reflexivity.
Qed.

Lemma next_requires_verification_witness :
  exists h token secret decoded user blob,
    header Fixtures.good_token "authorization" = VStr h /\
    split " " h = ["Bearer"; token] /\
    process_env Fixtures.rt !! "JWT_SECRET" = Some secret /\
    jwt_verify Fixtures.rt token secret = Normal decoded /\
    member decoded "user" = Normal user /\
    JSON_stringify Fixtures.rt user = Normal blob /\
    headers
      (set_header "x-user-data" (VStr "{}")
         (set_header "x-user-type" (VStr "buyer")
            (set_header "x-user-email" (VStr "a@b.com")
               (set_header "x-user-id" (VStr "u1") Fixtures.good_token))))
      !! "x-user-data" = Some blob.
Proof.
  apply (next_requires_verification Fixtures.rt Fixtures.good_token).
  - reflexivity.
  - reflexivity.
Defined.
